(** * Shallow embedding of [streamlit_app.py] (Lumpy Skin Disease dashboard)

    The data loader [load_data], the filter producing [filtered_data], the
    two risk scores [risk_score_a] / [risk_score_b], the phase table and the
    monthly group-by used for the chart.  Python floats are modelled as
    exact rationals [Q]; pandas frames as lists of rows. *)

From Stdlib Require Import String List ZArith QArith Qminmax Lqa Lia Sorted Permutation.
Import ListNotations.

Open Scope Z_scope.

(** ** Dates *)

(** A pandas [Timestamp] as parsed from the ['발생일'] column; only the
    calendar fields matter to the program (comparison, [.year],
    [.to_period('M')]). *)
Record date := mkDate { year : Z; month : Z; day : Z }.

Definition date_leb (a b : date) : bool :=
  (year a <? year b) ||
  ((year a =? year b) && ((month a <? month b) ||
                          ((month a =? month b) && (day a <=? day b)))).

(** ** Rows *)

(** A raw CSV row after [pd.to_datetime(..., errors='coerce')]: a missing or
    unparseable cell is [None] (NaN / NaT). *)
Record raw_row := mkRaw {
  raw_date : option date;
  raw_lat : option Q;
  raw_long : option Q;
  raw_region : option string
}.

(** A row of the loaded frame [data], with the derived ['month_year'] column. *)
Record row := mkRow {
  occ : date;
  lat : Q;
  long : Q;
  region : string;
  month_year : Z * Z
}.

(** ** Data loader ([load_data]) *)

(** Outcome of [pd.read_csv(f)]: rows, [FileNotFoundError], or any other
    exception (not caught by the loader). *)
Inductive read_outcome :=
| ReadOk (rows : list raw_row)
| ReadNotFound
| ReadOtherError.

(** [data.dropna(subset=['발생일','Lat','Long','지역'])]. *)
Definition dropna (r : raw_row) : option (date * Q * Q * string) :=
  match raw_date r, raw_lat r, raw_long r, raw_region r with
  | Some d, Some la, Some lo, Some rg => Some (d, la, lo, rg)
  | _, _, _, _ => None
  end.

Fixpoint dropna_all (rs : list raw_row) : list (date * Q * Q * string) :=
  match rs with
  | [] => []
  | r :: rs' =>
      match dropna r with
      | Some x => x :: dropna_all rs'
      | None => dropna_all rs'
      end
  end.

(** [data[(data['Lat'] != 0) & (data['Long'] != 0)]]. *)
Definition coord_ok (x : date * Q * Q * string) : bool :=
  let '(_, la, lo, _) := x in
  negb (Qeq_bool la 0) && negb (Qeq_bool lo 0).

(** [data['month_year'] = data['발생일'].dt.to_period('M')]. *)
Definition to_period_M (d : date) : Z * Z := (year d, month d).

Definition mk_row (x : date * Q * Q * string) : row :=
  let '(d, la, lo, rg) := x in mkRow d la lo rg (to_period_M d).

(** [data.sort_values('발생일')]: pandas' default sort is not guaranteed
    stable; an insertion sort is one of its admissible outcomes. *)
Fixpoint insert_by_date (r : row) (l : list row) : list row :=
  match l with
  | [] => [r]
  | h :: t => if date_leb (occ r) (occ h) then r :: h :: t
              else h :: insert_by_date r t
  end.

Fixpoint sort_by_date (l : list row) : list row :=
  match l with
  | [] => []
  | h :: t => insert_by_date h (sort_by_date t)
  end.

(** The preprocessing applied to the concatenated frame. *)
Definition preprocess (rs : list raw_row) : list row :=
  sort_by_date (map mk_row (filter coord_ok (dropna_all rs))).

(** The [st.error] message of the [except FileNotFoundError] branch. *)
Definition not_found_msg (f : string) : string :=
  ("파일을 찾을 수 없습니다: " ++ f ++ ". app.py와 동일한 위치에 있는지 확인하세요.")%string.

(** The file loop: per missing file an [st.error] message, the frames read
    so far concatenated in file order; any other exception escapes
    ([None]). *)
Fixpoint read_all (files : list (string * read_outcome))
  : option (list string * list (list raw_row)) :=
  match files with
  | [] => Some ([], [])
  | (f, o) :: fs =>
      match o with
      | ReadOtherError => None
      | ReadNotFound =>
          match read_all fs with
          | Some (ws, dfs) => Some (not_found_msg f :: ws, dfs)
          | None => None
          end
      | ReadOk rows =>
          match read_all fs with
          | Some (ws, dfs) => Some (ws, rows :: dfs)
          | None => None
          end
      end
  end.

(** [load_data()]: the messages it reports and the frame it returns. *)
Definition load_data (files : list (string * read_outcome))
  : option (list string * list row) :=
  match read_all files with
  | None => None
  | Some (ws, dfs) =>
      match dfs with
      | [] => Some (ws, [])                       (* pd.DataFrame() *)
      | _ => Some (ws, preprocess (concat dfs))
      end
  end.

(** ** Filter ([filtered_data]) *)

Definition asia : string := "아시아".
Definition europe : string := "유럽".

Fixpoint isin (s : string) (l : list string) : bool :=
  match l with
  | [] => false
  | h :: t => String.eqb s h || isin s t
  end.

(** [data[(data['발생일'] <= sim_date) & (data['지역'].isin(continents))]]. *)
Definition keep (sim_date : date) (continents : list string) (r : row) : bool :=
  date_leb (occ r) sim_date && isin (region r) continents.

Definition filtered_data (data : list row) (sim_date : date)
  (continents : list string) : list row :=
  filter (keep sim_date continents) data.

(** ** Risk scorer *)

Open Scope Q_scope.

(** Python's [min(a, b)]: [b] only when [b < a]. *)
Definition py_min (a b : Q) : Q := if Qle_bool a b then a else b.

(** Python's [x > c]. *)
Definition py_gt (x c : Q) : bool := negb (Qle_bool x c).

Definition asia_cases (fd : list row) : Z :=
  Z.of_nat (length (filter (fun r => String.eqb (region r) asia) fd)).

Definition total_cases (fd : list row) : Z := Z.of_nat (length fd).

(** [time_factor = (sim_date.year - 2019) / 4]. *)
Definition time_factor (sim_date : date) : Q :=
  inject_Z (year sim_date - 2019) / 4.

(** [risk_score_a = min(99, (asia_cases / (total_cases + 1)) * 100 + (time_factor * 20))]. *)
Definition risk_score_a (fd : list row) (sim_date : date) : Q :=
  py_min 99 ((inject_Z (asia_cases fd) / inject_Z (total_cases fd + 1)) * 100
             + time_factor sim_date * 20).

(** [llm_context_bonus = (asia_cases * time_factor * 1.5) if agent_b_enabled else 0]. *)
Definition llm_context_bonus (fd : list row) (sim_date : date)
  (agent_b_enabled : bool) : Q :=
  if agent_b_enabled then inject_Z (asia_cases fd) * time_factor sim_date * (3 # 2)
  else 0.

(** [risk_score_b = min(99, risk_score_a + llm_context_bonus)]. *)
Definition risk_score_b (fd : list row) (sim_date : date)
  (agent_b_enabled : bool) : Q :=
  py_min 99 (risk_score_a fd sim_date + llm_context_bonus fd sim_date agent_b_enabled).

(** The three branches of the [if risk_score_b > 80 / elif > 50 / else]. *)
Inductive phase := Diffusion | Early | Latent.

Definition classify (score : Q) : phase :=
  if py_gt score 80 then Diffusion
  else if py_gt score 50 then Early
  else Latent.

Definition llm_phase (p : phase) : string :=
  match p with
  | Diffusion => "확산기 (Diffusion)"
  | Early => "초기 (Early)"
  | Latent => "잠복기 (Latent)"
  end.

Definition llm_score (p : phase) : string :=
  match p with
  | Diffusion => "9.5"
  | Early => "7.0"
  | Latent => "4.0"
  end.

Record assessment := mkAssessment {
  score_a : Q;
  score_b : Q;
  phase_of : phase
}.

Definition assess (fd : list row) (sim_date : date) (agent_b_enabled : bool)
  : assessment :=
  let b := risk_score_b fd sim_date agent_b_enabled in
  mkAssessment (risk_score_a fd sim_date) b (classify b).

(** ** Monthly counts ([filtered_data.groupby('month_year').size()]) *)

Close Scope Q_scope.

Definition period_ltb (a b : Z * Z) : bool :=
  (fst a <? fst b) || ((fst a =? fst b) && (snd a <? snd b)).

Definition period_eqb (a b : Z * Z) : bool :=
  (fst a =? fst b) && (snd a =? snd b).

(** One row added to the sorted group table. *)
Fixpoint count_into (k : Z * Z) (tbl : list ((Z * Z) * nat)) : list ((Z * Z) * nat) :=
  match tbl with
  | [] => [(k, 1%nat)]
  | (k', n) :: t =>
      if period_eqb k k' then (k', S n) :: t
      else if period_ltb k k' then (k, 1%nat) :: (k', n) :: t
      else (k', n) :: count_into k t
  end.

Definition monthly_counts (fd : list row) : list ((Z * Z) * nat) :=
  fold_right (fun r tbl => count_into (month_year r) tbl) [] fd.

Fixpoint sum_counts (tbl : list ((Z * Z) * nat)) : nat :=
  match tbl with
  | [] => 0
  | (_, n) :: t => n + sum_counts t
  end%nat.

(** ** The app script *)

Inductive outcome :=
| Halted                                      (* st.error(...); st.stop() *)
| Dashboard (fd : list row) (a : assessment) (monthly : list ((Z * Z) * nat)).

(** One run of the script: load, stop on an empty frame, else filter,
    score and aggregate.  [None] is an uncaught exception in the loader. *)
Definition run_app (files : list (string * read_outcome)) (sim_date : date)
  (continents : list string) (agent_b_enabled : bool)
  : option (list string * outcome) :=
  match load_data files with
  | None => None
  | Some (ws, data) =>
      match data with
      | [] => Some (ws, Halted)
      | _ =>
          let fd := filtered_data data sim_date continents in
          Some (ws, Dashboard fd (assess fd sim_date agent_b_enabled) (monthly_counts fd))
      end
  end.

(** The slider's range: [data['발생일'].min()] .. [data['발생일'].max()]. *)
Definition in_range (data : list row) (d : date) : Prop :=
  (exists r, In r data /\ date_leb (occ r) d = true) /\
  (exists r, In r data /\ date_leb d (occ r) = true).

(** Order-preserving sub-sequence (a boolean mask keeps rows in place). *)
Inductive subseq {A : Type} : list A -> list A -> Prop :=
| subseq_nil : subseq [] []
| subseq_keep x l l' : subseq l l' -> subseq (x :: l) (x :: l')
| subseq_skip x l l' : subseq l l' -> subseq l (x :: l').

Definition by_date (a b : row) : Prop := date_leb (occ a) (occ b) = true.

(** The messages and frames the file loop should produce when no file raises
    anything but [FileNotFoundError]. *)
Fixpoint missing_warnings (files : list (string * read_outcome)) : list string :=
  match files with
  | [] => []
  | (f, ReadNotFound) :: fs => not_found_msg f :: missing_warnings fs
  | _ :: fs => missing_warnings fs
  end.

Fixpoint read_frames (files : list (string * read_outcome)) : list (list raw_row) :=
  match files with
  | [] => []
  | (_, ReadOk rows) :: fs => rows :: read_frames fs
  | _ :: fs => read_frames fs
  end.

Definition is_asia (r : row) : bool := String.eqb (region r) asia.
Definition is_europe (r : row) : bool := String.eqb (region r) europe.

(** ** Generic lemmas *)

Open Scope Q_scope.

Lemma py_min_below (x : Q) : x < 99 -> py_min 99 x = x.
Proof.
  intros H. unfold py_min. destruct (Qle_bool 99 x) eqn:E; [|reflexivity].
  apply Qle_bool_iff in E. exfalso. apply (Qlt_not_le x 99); assumption.
Qed.

Lemma py_min_le (x : Q) : py_min 99 x <= 99.
Proof.
  unfold py_min. destruct (Qle_bool 99 x) eqn:E; [apply Qle_refl|].
  apply Qnot_lt_le. intros H. apply Qlt_le_weak in H.
  apply Qle_bool_iff in H. congruence.
Qed.

Lemma py_min_nonneg (x : Q) : 0 <= x -> 0 <= py_min 99 x.
Proof.
  intros H. unfold py_min. destruct (Qle_bool 99 x); [|assumption].
  apply Qle_bool_iff. reflexivity.
Qed.

Lemma py_min_ge (y x : Q) : y <= 99 -> y <= x -> y <= py_min 99 x.
Proof. intros H1 H2. unfold py_min. destruct (Qle_bool 99 x); assumption. Qed.

Lemma py_min_idem (x : Q) : x <= 99 -> py_min 99 x == x.
Proof.
  intros H. unfold py_min. destruct (Qle_bool 99 x) eqn:E; [|reflexivity].
  apply Qle_bool_iff in E. apply Qle_antisym; assumption.
Qed.

Lemma py_gt_iff (x c : Q) : py_gt x c = true <-> c < x.
Proof.
  unfold py_gt. split.
  - intros H. apply Qnot_le_lt. intros Hle.
    apply Qle_bool_iff in Hle. rewrite Hle in H. discriminate.
  - intros H. destruct (Qle_bool x c) eqn:E; [|reflexivity].
    apply Qle_bool_iff in E. exfalso. apply (Qlt_not_le c x); assumption.
Qed.

Lemma Qle_bool_compat (x y c : Q) : x == y -> Qle_bool x c = Qle_bool y c.
Proof.
  intros H. destruct (Qle_bool x c) eqn:E1, (Qle_bool y c) eqn:E2; try reflexivity.
  - apply Qle_bool_iff in E1. rewrite H in E1. apply Qle_bool_iff in E1. congruence.
  - apply Qle_bool_iff in E2. rewrite <- H in E2. apply Qle_bool_iff in E2. congruence.
Qed.

Lemma classify_compat (x y : Q) : x == y -> classify x = classify y.
Proof.
  intros H. unfold classify, py_gt.
  rewrite (Qle_bool_compat x y 80 H), (Qle_bool_compat x y 50 H). reflexivity.
Qed.

Lemma time_factor_nonneg (d : date) : (2019 <= year d)%Z -> 0 <= time_factor d.
Proof.
  intros H. unfold time_factor, Qdiv. apply Qmult_le_0_compat.
  - change 0 with (inject_Z 0). rewrite <- Zle_Qle. lia.
  - apply Qle_bool_iff. reflexivity.
Qed.

Lemma ratio_nonneg (a n : Z) : (0 <= a)%Z -> (0 <= n)%Z -> 0 <= inject_Z a / inject_Z n.
Proof.
  intros Ha Hn. unfold Qdiv. apply Qmult_le_0_compat.
  - change 0 with (inject_Z 0). rewrite <- Zle_Qle. exact Ha.
  - apply Qinv_le_0_compat. change 0 with (inject_Z 0). rewrite <- Zle_Qle. exact Hn.
Qed.

Lemma py_gt_false (x c : Q) : py_gt x c = false <-> x <= c.
Proof.
  split.
  - intros H. apply Qnot_lt_le. intros Hlt. apply py_gt_iff in Hlt. congruence.
  - intros H. destruct (py_gt x c) eqn:E; [|reflexivity].
    apply py_gt_iff in E. exfalso. apply (Qlt_not_le c x); assumption.
Qed.

Lemma risk_score_a_le (fd : list row) (d : date) : risk_score_a fd d <= 99.
Proof. apply py_min_le. Qed.

Lemma asia_cases_nonneg (fd : list row) : (0 <= asia_cases fd)%Z.
Proof. unfold asia_cases. lia. Qed.

Lemma risk_score_a_nonneg (fd : list row) (d : date) :
  (2019 <= year d)%Z -> 0 <= risk_score_a fd d.
Proof.
  intros H. unfold risk_score_a. apply py_min_nonneg.
  assert (H1 : 0 <= inject_Z (asia_cases fd) / inject_Z (total_cases fd + 1)).
  { apply ratio_nonneg; [apply asia_cases_nonneg | unfold total_cases; lia]. }
  pose proof (time_factor_nonneg d H). lra.
Qed.

Lemma bonus_nonneg (fd : list row) (d : date) (en : bool) :
  (2019 <= year d)%Z -> 0 <= llm_context_bonus fd d en.
Proof.
  intros H. unfold llm_context_bonus. destruct en; [|apply Qle_refl].
  apply Qmult_le_0_compat; [apply Qmult_le_0_compat|].
  - change 0 with (inject_Z 0). rewrite <- Zle_Qle. apply asia_cases_nonneg.
  - apply time_factor_nonneg; exact H.
  - apply Qle_bool_iff; reflexivity.
Qed.

(** ** Claims *)

(** C1 (as stated, refuted): on every slider date [time_factor] lies in
    [[0.1, 1.0]].  A dataset whose only record is dated 2019-01-01 puts the
    slider at that date, where [time_factor] is [0]. *)
Lemma C1_counterexample :
  ~ (forall (data : list row) (d : date), in_range data d ->
       1 # 10 <= time_factor d <= 1).
Proof.
  intros H.
  set (d := mkDate 2019 1 1).
  set (r := mkRow d 1 1 asia (2019, 1)%Z).
  destruct (H [r] d) as [H1 _].
  - split; exists r; split; try (left; reflexivity); reflexivity.
  - vm_compute in H1. apply H1. reflexivity.
Qed.

(** C1 (amended): [time_factor] is [(year - 2019) / 4] with no clamping; for
    simulated dates in the years 2019 to 2023 it lies in [[0, 1]]. *)
Theorem C1_time_factor_range (d : date) :
  (2019 <= year d <= 2023)%Z ->
  time_factor d == inject_Z (year d - 2019) / 4 /\ 0 <= time_factor d <= 1.
Proof.
  intros H. split; [reflexivity|]. split.
  - apply time_factor_nonneg. lia.
  - unfold time_factor, Qle, Qdiv, Qmult, Qinv. simpl. lia.
Qed.

Lemma C1_time_factor_range_witness :
  (2019 <= year (mkDate 2021 3 1) <= 2023)%Z /\
  time_factor (mkDate 2021 3 1) == inject_Z (year (mkDate 2021 3 1) - 2019) / 4 /\
  0 <= time_factor (mkDate 2021 3 1) <= 1.
Proof. split; [simpl; lia | apply C1_time_factor_range; simpl; lia]. Defined.

(** C5: the phase is read off the enhanced score by the fixed thresholds:
    above 80 gives Diffusion, above 50 up to 80 gives Early, at most 50
    gives Latent. *)
Theorem C5_phase_thresholds (fd : list row) (d : date) (en : bool) :
  let s := score_b (assess fd d en) in
  (phase_of (assess fd d en) = Diffusion <-> 80 < s) /\
  (phase_of (assess fd d en) = Early <-> 50 < s /\ s <= 80) /\
  (phase_of (assess fd d en) = Latent <-> s <= 50).
Proof.
  cbn zeta. unfold assess. cbn [phase_of score_b].
  set (s := risk_score_b fd d en). unfold classify.
  destruct (py_gt s 80) eqn:E1.
  - apply py_gt_iff in E1.
    repeat split; intros; try discriminate; try assumption; exfalso; lra.
  - apply py_gt_false in E1. destruct (py_gt s 50) eqn:E2.
    + apply py_gt_iff in E2.
      repeat split; intros; try discriminate; try assumption; try lra;
        exfalso; lra.
    + apply py_gt_false in E2.
      repeat split; intros; try discriminate; try assumption; try lra;
        exfalso; lra.
Qed.

(** C6: with the enhanced mode off, the enhanced score equals the baseline. *)
Theorem C6_disabled_equal (fd : list row) (d : date) :
  risk_score_b fd d false == risk_score_a fd d.
Proof.
  unfold risk_score_b, llm_context_bonus.
  rewrite py_min_idem.
  - apply Qplus_0_r.
  - rewrite Qplus_0_r. apply risk_score_a_le.
Qed.

(** A one-record dataset dated 2018-06-01, used for C3 and C7. *)
Definition rec_2018 (rg : string) : row :=
  mkRow (mkDate 2018 6 1) 1 1 rg (2018, 6)%Z.

Lemma in_range_single (r : row) : in_range [r] (occ r).
Proof.
  assert (Hd : date_leb (occ r) (occ r) = true).
  { unfold date_leb. rewrite Z.eqb_refl, Z.eqb_refl, Z.leb_refl.
    rewrite Bool.orb_true_r, Bool.orb_true_r. reflexivity. }
  split; exists r; split; try (left; reflexivity); exact Hd.
Qed.

(** C3 (as stated, refuted): both scores lie in [[0, 99]] for every filtered
    subset and slider date.  A European record dated 2018-06-01 gives
    [time_factor = -1/4] and a baseline score of [-5]. *)
Lemma C3_counterexample :
  ~ (forall (data : list row) (d : date) (cs : list string) (en : bool),
       in_range data d ->
       let fd := filtered_data data d cs in
       (0 <= risk_score_a fd d <= 99) /\ (0 <= risk_score_b fd d en <= 99)).
Proof.
  intros H.
  destruct (H [rec_2018 europe] (occ (rec_2018 europe)) [europe] false
              (in_range_single _)) as [[H1 _] _].
  vm_compute in H1. apply H1. reflexivity.
Qed.

(** C3 (amended): both scores are at most 99 (the [min] saturates) and the
    denominator [total_cases + 1] is positive even for an empty subset, for
    every slider date; for slider dates in 2019 or later both scores are
    also at least 0. *)
Theorem C3_scores_bounded (data : list row) (d : date) (cs : list string) (en : bool) :
  let fd := filtered_data data d cs in
  (0 < inject_Z (total_cases fd + 1) /\
   risk_score_a fd d <= 99 /\ risk_score_b fd d en <= 99) /\
  ((2019 <= year d)%Z -> 0 <= risk_score_a fd d /\ 0 <= risk_score_b fd d en).
Proof.
  intros fd. split; [split; [|split]|intros Hy; split].
  - change 0 with (inject_Z 0). rewrite <- Zlt_Qlt. unfold total_cases. lia.
  - apply risk_score_a_le.
  - apply py_min_le.
  - apply risk_score_a_nonneg; exact Hy.
  - unfold risk_score_b. apply py_min_nonneg.
    pose proof (risk_score_a_nonneg fd d Hy).
    pose proof (bonus_nonneg fd d en Hy). lra.
Qed.

(** Three records of 2021 and 2022 in two regions. *)
Definition mixed_rows : list row :=
  [mkRow (mkDate 2021 4 2) (20 # 1) (100 # 1) asia (2021, 4)%Z;
   mkRow (mkDate 2021 7 9) (40 # 1) (30 # 1) europe (2021, 7)%Z;
   mkRow (mkDate 2022 1 1) (25 # 1) (110 # 1) asia (2022, 1)%Z].

Lemma C3_scores_bounded_witness :
  let fd := filtered_data mixed_rows (mkDate 2021 12 31) [asia; europe] in
  (0 < inject_Z (total_cases fd + 1) /\
   risk_score_a fd (mkDate 2021 12 31) <= 99 /\
   risk_score_b fd (mkDate 2021 12 31) true <= 99) /\
  ((2019 <= year (mkDate 2021 12 31))%Z /\
   0 <= risk_score_a fd (mkDate 2021 12 31) /\
   0 <= risk_score_b fd (mkDate 2021 12 31) true).
Proof.
  pose proof (C3_scores_bounded mixed_rows (mkDate 2021 12 31) [asia; europe] true) as H.
  cbn zeta in H |- *. destruct H as [H1 H2].
  split; [exact H1|]. split; [simpl; lia|]. apply H2. simpl; lia.
Defined.

(** C7 (as stated, refuted): with the enhanced mode on and at least one Asian
    record, the enhanced score is at least the baseline.  An Asian record
    dated 2018-06-01 gives a negative bonus: baseline [45], enhanced [44.625]. *)
Lemma C7_counterexample :
  ~ (forall (data : list row) (d : date) (cs : list string),
       in_range data d ->
       let fd := filtered_data data d cs in
       (0 < asia_cases fd)%Z -> risk_score_a fd d <= risk_score_b fd d true).
Proof.
  intros H.
  specialize (H [rec_2018 asia] (occ (rec_2018 asia)) [asia] (in_range_single _)
                (eq_refl _)).
  vm_compute in H. apply H. reflexivity.
Qed.

(** C7 (amended): with the enhanced mode on and at least one Asian record,
    the enhanced score is at least the baseline for slider dates in 2019 or
    later (where [time_factor >= 0]). *)
Theorem C7_enhanced_ge_baseline (fd : list row) (d : date) :
  (2019 <= year d)%Z -> (0 < asia_cases fd)%Z ->
  risk_score_a fd d <= risk_score_b fd d true.
Proof.
  intros Hy _. unfold risk_score_b. apply py_min_ge.
  - apply risk_score_a_le.
  - pose proof (bonus_nonneg fd d true Hy). lra.
Qed.

Definition asia_2023 : row := mkRow (mkDate 2023 1 5) 10 100 asia (2023, 1)%Z.

Lemma C7_enhanced_ge_baseline_witness :
  (2019 <= year (mkDate 2023 9 30))%Z /\ (0 < asia_cases [asia_2023])%Z /\
  risk_score_a [asia_2023] (mkDate 2023 9 30) <=
  risk_score_b [asia_2023] (mkDate 2023 9 30) true.
Proof.
  split; [simpl; lia|]. split; [vm_compute; reflexivity|].
  apply C7_enhanced_ge_baseline; [simpl; lia | vm_compute; reflexivity].
Defined.

(** ** Lemmas on the filter, the loader and the group-by *)

Lemma filter_all_true {A : Type} (f : A -> bool) (l : list A) :
  (forall x, In x l -> f x = true) -> filter f l = l.
Proof.
  induction l as [|a l IH]; intros H; simpl; [reflexivity|].
  rewrite (H a (or_introl eq_refl)). f_equal. apply IH. intros x Hx. apply H. right; exact Hx.
Qed.

Lemma py_min_below_eq (x v : Q) : x == v -> v < 99 -> py_min 99 x == v.
Proof.
  intros H Hv. rewrite py_min_below; [exact H|]. rewrite H. exact Hv.
Qed.

Lemma isin_In (s : string) (l : list string) : isin s l = true <-> In s l.
Proof.
  induction l as [|h t IH]; simpl; [split; [discriminate | intros []]|].
  rewrite Bool.orb_true_iff, IH, String.eqb_eq. split; intros [H|H]; auto.
Qed.

Lemma date_leb_spec (a b : date) :
  date_leb a b = true <->
  (year a < year b \/ (year a = year b /\
     (month a < month b \/ (month a = month b /\ day a <= day b))))%Z.
Proof.
  unfold date_leb.
  rewrite Bool.orb_true_iff, Bool.andb_true_iff, Bool.orb_true_iff,
    Bool.andb_true_iff, Z.ltb_lt, Z.eqb_eq, Z.ltb_lt, Z.eqb_eq, Z.leb_le.
  reflexivity.
Qed.

Lemma date_leb_trans (a b c : date) :
  date_leb a b = true -> date_leb b c = true -> date_leb a c = true.
Proof. rewrite !date_leb_spec. lia. Qed.

Lemma subseq_filter {A : Type} (f : A -> bool) (l : list A) : subseq (filter f l) l.
Proof.
  induction l as [|a l IH]; simpl; [constructor|].
  destruct (f a); constructor; exact IH.
Qed.

Lemma StronglySorted_filter {A : Type} (R : A -> A -> Prop) (f : A -> bool) (l : list A) :
  StronglySorted R l -> StronglySorted R (filter f l).
Proof.
  induction l as [|a l IH]; intros H; simpl; [constructor|].
  apply StronglySorted_inv in H as [H1 H2].
  destruct (f a); [constructor|]; auto.
  apply Forall_forall. intros x Hx. apply filter_In in Hx as [Hx _].
  rewrite Forall_forall in H2. auto.
Qed.

Lemma read_all_ok (files : list (string * read_outcome)) :
  (forall f, ~ In (f, ReadOtherError) files) ->
  read_all files = Some (missing_warnings files, read_frames files).
Proof.
  induction files as [|[f o] fs IH]; intros H; simpl; [reflexivity|].
  rewrite IH by (intros g Hg; apply (H g); right; exact Hg).
  destruct o; [reflexivity | reflexivity |].
  exfalso. apply (H f). left; reflexivity.
Qed.

Lemma load_data_ok (files : list (string * read_outcome)) :
  (forall f, ~ In (f, ReadOtherError) files) ->
  load_data files = Some (missing_warnings files, preprocess (concat (read_frames files))).
Proof.
  intros H. unfold load_data. rewrite (read_all_ok files H).
  destruct (read_frames files); reflexivity.
Qed.

Lemma read_frames_In (files : list (string * read_outcome)) (rows : list raw_row) :
  In rows (read_frames files) -> exists f, In (f, ReadOk rows) files.
Proof.
  induction files as [|[f o] fs IH]; simpl; [intros []|].
  destruct o; intros Hin.
  - destruct Hin as [<-|Hin]; [exists f; left; reflexivity|].
    destruct (IH Hin) as [g Hg]. exists g. right; exact Hg.
  - destruct (IH Hin) as [g Hg]. exists g. right; exact Hg.
  - destruct (IH Hin) as [g Hg]. exists g. right; exact Hg.
Qed.

(** A raw row whose latitude or longitude is a present zero. *)
Definition zero_coord (r : raw_row) : Prop :=
  (exists q, raw_lat r = Some q /\ q == 0) \/ (exists q, raw_long r = Some q /\ q == 0).

Lemma coord_filter_zero (rs : list raw_row) :
  (forall r, In r rs -> zero_coord r) -> filter coord_ok (dropna_all rs) = [].
Proof.
  induction rs as [|r rs IH]; intros H; simpl; [reflexivity|].
  assert (IH' : filter coord_ok (dropna_all rs) = [])
    by (apply IH; intros x Hx; apply H; right; exact Hx).
  destruct (dropna r) as [[[[dt la] lo] rg]|] eqn:E; [|exact IH'].
  simpl. rewrite IH'.
  unfold dropna in E.
  destruct (raw_date r), (raw_lat r) eqn:El, (raw_long r) eqn:Eo, (raw_region r);
    try discriminate.
  injection E as <- <- <- <-.
  destruct (H r (or_introl eq_refl)) as [[q1 [Hq Hz]]|[q1 [Hq Hz]]].
  - rewrite El in Hq. injection Hq as ->.
    apply Qeq_bool_iff in Hz. rewrite Hz. reflexivity.
  - rewrite Eo in Hq. injection Hq as ->.
    apply Qeq_bool_iff in Hz. rewrite Hz, Bool.andb_false_r. reflexivity.
Qed.

Lemma count_into_sum (k : Z * Z) (tbl : list ((Z * Z) * nat)) :
  sum_counts (count_into k tbl) = S (sum_counts tbl).
Proof.
  induction tbl as [|[k' n] t IH]; simpl; [reflexivity|].
  destruct (period_eqb k k'); [reflexivity|].
  destruct (period_ltb k k'); simpl; [reflexivity|]. rewrite IH. lia.
Qed.

Lemma monthly_counts_sum (fd : list row) : sum_counts (monthly_counts fd) = length fd.
Proof.
  induction fd as [|r fd IH]; simpl; [reflexivity|].
  unfold monthly_counts in *. simpl. rewrite count_into_sum, IH. reflexivity.
Qed.

(** ** Claims (continued) *)

(** C2: the worked scenario.  Ten records, six Asian and four European, all
    dated on or before the cutoff, the cutoff being the latest record date,
    with [time_factor = 1]; regions [{아시아, 유럽}].  Disabled: baseline
    [= min(99, 6/11*100 + 20) = 820/11] (74.55 to two decimals) and phase
    Early.  Enabled: bonus [6*1*1.5 = 9], enhanced [919/11] (83.55) and phase
    Diffusion. *)
Theorem C2_scenario (data : list row) (d : date) :
  length data = 10%nat ->
  length (filter is_asia data) = 6%nat ->
  length (filter is_europe data) = 4%nat ->
  (forall r, In r data ->
     date_leb (occ r) d = true /\ (region r = asia \/ region r = europe)) ->
  (exists r, In r data /\ occ r = d) ->
  time_factor d == 1 ->
  let fd := filtered_data data d [asia; europe] in
  total_cases fd = 10%Z /\ asia_cases fd = 6%Z /\
  risk_score_a fd d == py_min 99 (6 / 11 * 100 + 20) /\
  risk_score_a fd d == 820 # 11 /\
  risk_score_b fd d false == 820 # 11 /\ phase_of (assess fd d false) = Early /\
  llm_context_bonus fd d true == 9 /\
  risk_score_b fd d true == 919 # 11 /\ phase_of (assess fd d true) = Diffusion.
Proof.
  intros Hlen Hasia _ Hall _ Htf fd.
  assert (Hfd : fd = data).
  { apply filter_all_true. intros r Hr. destruct (Hall r Hr) as [Hd Hrg].
    unfold keep. rewrite Hd. apply isin_In. destruct Hrg as [E|E]; rewrite E; simpl; auto. }
  assert (Ht : total_cases fd = 10%Z) by (unfold total_cases; rewrite Hfd, Hlen; reflexivity).
  assert (Ha : asia_cases fd = 6%Z)
    by (unfold asia_cases; change (filter _ fd) with (filter is_asia fd);
        rewrite Hfd, Hasia; reflexivity).
  assert (Hx : inject_Z (asia_cases fd) / inject_Z (total_cases fd + 1) * 100
               + time_factor d * 20 == 820 # 11)
    by (rewrite Ha, Ht, Htf; reflexivity).
  assert (HA : risk_score_a fd d == 820 # 11)
    by (unfold risk_score_a; apply py_min_below_eq; [exact Hx | reflexivity]).
  assert (HB0 : risk_score_b fd d false == 820 # 11).
  { unfold risk_score_b, llm_context_bonus. apply py_min_below_eq; [|reflexivity].
    rewrite HA. reflexivity. }
  assert (Hbonus : llm_context_bonus fd d true == 9)
    by (unfold llm_context_bonus; rewrite Ha, Htf; reflexivity).
  assert (HB1 : risk_score_b fd d true == 919 # 11).
  { unfold risk_score_b. apply py_min_below_eq; [|reflexivity].
    rewrite HA, Hbonus. reflexivity. }
  split; [exact Ht|]. split; [exact Ha|]. split.
  { rewrite HA. symmetry. apply py_min_below_eq; reflexivity. }
  split; [exact HA|]. split; [exact HB0|]. split.
  { unfold assess. cbn [phase_of]. rewrite (classify_compat _ _ HB0). reflexivity. }
  split; [exact Hbonus|]. split; [exact HB1|].
  unfold assess. cbn [phase_of]. rewrite (classify_compat _ _ HB1). reflexivity.
Qed.

Definition day_2023 : date := mkDate 2023 1 5.
Definition asia_row : row := mkRow day_2023 (35 # 1) (105 # 1) asia (2023, 1)%Z.
Definition europe_row : row := mkRow day_2023 (45 # 1) (20 # 1) europe (2023, 1)%Z.
Definition scenario_data : list row :=
  [asia_row; asia_row; asia_row; asia_row; asia_row; asia_row;
   europe_row; europe_row; europe_row; europe_row].

Lemma C2_scenario_witness :
  let fd := filtered_data scenario_data day_2023 [asia; europe] in
  total_cases fd = 10%Z /\ asia_cases fd = 6%Z /\
  risk_score_a fd day_2023 == py_min 99 (6 / 11 * 100 + 20) /\
  risk_score_a fd day_2023 == 820 # 11 /\
  risk_score_b fd day_2023 false == 820 # 11 /\
  phase_of (assess fd day_2023 false) = Early /\
  llm_context_bonus fd day_2023 true == 9 /\
  risk_score_b fd day_2023 true == 919 # 11 /\
  phase_of (assess fd day_2023 true) = Diffusion.
Proof.
  apply C2_scenario.
  - reflexivity.
  - vm_compute. reflexivity.
  - vm_compute. reflexivity.
  - intros r Hr. simpl in Hr.
    repeat (destruct Hr as [<-|Hr]; [split; [reflexivity | simpl; tauto]|]).
    destruct Hr.
  - exists asia_row. split; [left; reflexivity | reflexivity].
  - reflexivity.
Defined.

(** C4: the filter keeps exactly the records dated on or before the cutoff
    whose region is selected, as a sub-sequence of the dataset (so a
    date-sorted dataset gives a date-sorted result), and an empty region
    selection gives an empty result. *)
Theorem C4_filter_spec (data : list row) (d : date) (cs : list string) :
  (forall r, In r (filtered_data data d cs) <->
             In r data /\ date_leb (occ r) d = true /\ In (region r) cs) /\
  subseq (filtered_data data d cs) data /\
  (Sorted by_date data -> Sorted by_date (filtered_data data d cs)) /\
  (cs = [] -> filtered_data data d cs = []).
Proof.
  split; [|split; [|split]].
  - intros r. unfold filtered_data, keep.
    rewrite filter_In, Bool.andb_true_iff, isin_In. reflexivity.
  - apply subseq_filter.
  - intros Hs. apply StronglySorted_Sorted. apply StronglySorted_filter.
    apply Sorted_StronglySorted; [|exact Hs].
    intros a b c. unfold by_date. apply date_leb_trans.
  - intros ->. unfold filtered_data, keep. simpl.
    induction data as [|r data IH]; simpl; [reflexivity|].
    rewrite Bool.andb_false_r. exact IH.
Qed.

(** C8: a missing file only adds its [st.error] message; the remaining frames
    are concatenated and preprocessed, and the app halts exactly when the
    resulting dataset is empty. *)
Theorem C8_missing_file_nonfatal (files : list (string * read_outcome)) :
  (forall f, ~ In (f, ReadOtherError) files) ->
  exists data,
    load_data files = Some (missing_warnings files, data) /\
    data = preprocess (concat (read_frames files)) /\
    (forall d cs en, run_app files d cs en = Some (missing_warnings files, Halted)
                     <-> data = []).
Proof.
  intros H. exists (preprocess (concat (read_frames files))).
  split; [apply load_data_ok; exact H|]. split; [reflexivity|].
  intros d cs en. unfold run_app. rewrite (load_data_ok files H).
  destruct (preprocess (concat (read_frames files))).
  - split; reflexivity.
  - split; discriminate.
Qed.

Definition raw_ok : raw_row :=
  mkRaw (Some (mkDate 2020 2 3)) (Some (30 # 1)) (Some (100 # 1)) (Some asia).

Definition two_files : list (string * read_outcome) :=
  [("2019.csv"%string, ReadNotFound); ("2020.csv"%string, ReadOk [raw_ok])].

Lemma C8_missing_file_nonfatal_witness :
  exists data,
    load_data two_files = Some (missing_warnings two_files, data) /\
    data = preprocess (concat (read_frames two_files)) /\
    (forall d cs en, run_app two_files d cs en = Some (missing_warnings two_files, Halted)
                     <-> data = []).
Proof.
  apply C8_missing_file_nonfatal.
  intros f [Hf|[Hf|[]]]; discriminate.
Defined.

(** C9: when every row read has a zero latitude or longitude, the loader
    returns an empty dataset. *)
Theorem C9_zero_coords_empty (files : list (string * read_outcome)) :
  (forall f, ~ In (f, ReadOtherError) files) ->
  (forall f rows r, In (f, ReadOk rows) files -> In r rows -> zero_coord r) ->
  load_data files = Some (missing_warnings files, []).
Proof.
  intros H Hz. rewrite (load_data_ok files H). unfold preprocess.
  rewrite coord_filter_zero; [reflexivity|].
  intros r Hr. apply in_concat in Hr as [rows [Hrows Hr]].
  destruct (read_frames_In files rows Hrows) as [f Hf].
  exact (Hz f rows r Hf Hr).
Qed.

Definition raw_zero : raw_row :=
  mkRaw (Some (mkDate 2021 5 6)) (Some 0) (Some (100 # 1)) (Some asia).

Lemma C9_zero_coords_empty_witness :
  load_data [("2021.csv"%string, ReadOk [raw_zero; raw_zero])] =
  Some (missing_warnings [("2021.csv"%string, ReadOk [raw_zero; raw_zero])], []).
Proof.
  apply C9_zero_coords_empty.
  - intros f [Hf|[]]. discriminate.
  - intros f rows r [Hf|[]] Hr. injection Hf as _ <-.
    destruct Hr as [<-|[<-|[]]]; left; exists 0; split; reflexivity.
Defined.

(** C10: the monthly counts of a filtered subset sum to its size. *)
Theorem C10_monthly_partition (data : list row) (d : date) (cs : list string) :
  sum_counts (monthly_counts (filtered_data data d cs)) =
  length (filtered_data data d cs).
Proof. apply monthly_counts_sum. Qed.

(** ** Further properties of the loader *)

Lemma date_leb_total (a b : date) : date_leb a b = false -> date_leb b a = true.
Proof.
  intros H. apply date_leb_spec.
  destruct (date_leb_spec a b) as [_ H2].
  destruct (Z.lt_trichotomy (year a) (year b)) as [Hy|[Hy|Hy]];
  [exfalso; rewrite H2 in H by lia; discriminate| |lia].
  destruct (Z.lt_trichotomy (month a) (month b)) as [Hm|[Hm|Hm]];
  [exfalso; rewrite H2 in H by lia; discriminate| |lia].
  destruct (Z.le_gt_cases (day a) (day b)) as [Hd|Hd];
  [exfalso; rewrite H2 in H by lia; discriminate|lia].
Qed.

Lemma insert_by_date_HdRel (a r : row) (l : list row) :
  HdRel by_date a l -> by_date a r -> HdRel by_date a (insert_by_date r l).
Proof.
  destruct l as [|h t]; simpl; intros H1 H2; [constructor; exact H2|].
  destruct (date_leb (occ r) (occ h)); constructor; [exact H2|].
  inversion H1; assumption.
Qed.

Lemma insert_by_date_sorted (r : row) (l : list row) :
  Sorted by_date l -> Sorted by_date (insert_by_date r l).
Proof.
  induction l as [|h t IH]; intros Hs; simpl; [repeat constructor|].
  destruct (date_leb (occ r) (occ h)) eqn:E.
  - constructor; [exact Hs | constructor; exact E].
  - apply Sorted_inv in Hs as [Ht Hh]. constructor; [apply IH; exact Ht|].
    apply insert_by_date_HdRel; [exact Hh|]. apply date_leb_total. exact E.
Qed.

Lemma sort_by_date_sorted (l : list row) : Sorted by_date (sort_by_date l).
Proof.
  induction l as [|h t IH]; simpl; [constructor|]. apply insert_by_date_sorted. exact IH.
Qed.

Lemma insert_by_date_perm (r : row) (l : list row) :
  Permutation (insert_by_date r l) (r :: l).
Proof.
  induction l as [|h t IH]; simpl; [reflexivity|].
  destruct (date_leb (occ r) (occ h)); [reflexivity|].
  rewrite IH. apply perm_swap.
Qed.

Lemma sort_by_date_perm (l : list row) : Permutation (sort_by_date l) l.
Proof.
  induction l as [|h t IH]; simpl; [reflexivity|].
  rewrite insert_by_date_perm. apply perm_skip. exact IH.
Qed.

Lemma load_data_shape (files : list (string * read_outcome)) ws data :
  load_data files = Some (ws, data) ->
  exists rs, data = preprocess rs /\ rs = concat (read_frames files).
Proof.
  unfold load_data. destruct (read_all files) as [[ws' dfs]|] eqn:E; [|discriminate].
  assert (Hf : forall f, ~ In (f, ReadOtherError) files).
  { clear -E. revert ws' dfs E. induction files as [|[f o] fs IH]; simpl;
      intros ws' dfs E g Hg; [exact Hg|].
    destruct Hg as [Hg|Hg].
    - injection Hg as -> ->. discriminate.
    - destruct o; destruct (read_all fs) as [[w d]|] eqn:E'; try discriminate;
        exact (IH w d eq_refl g Hg). }
  rewrite (read_all_ok files Hf) in E. injection E as <- <-.
  intros H. exists (concat (read_frames files)). split; [|reflexivity].
  destruct (read_frames files); injection H as <- <-; reflexivity.
Qed.

Lemma dropna_all_In (rs : list raw_row) x :
  In x (dropna_all rs) <-> exists r, In r rs /\ dropna r = Some x.
Proof.
  induction rs as [|r rs IH]; simpl.
  - split; [intros []|intros [r [[] _]]].
  - destruct (dropna r) as [y|] eqn:E; simpl; rewrite IH; split.
    + intros [<-|[r' [H1 H2]]]; [exists r; auto | exists r'; auto].
    + intros [r' [[<-|H1] H2]]; [left; congruence | right; exists r'; auto].
    + intros [r' [H1 H2]]. exists r'. auto.
    + intros [r' [[<-|H1] H2]]; [congruence | exists r'; auto].
Qed.

Lemma dropna_all_length (rs : list raw_row) : (length (dropna_all rs) <= length rs)%nat.
Proof.
  induction rs as [|r rs IH]; simpl; [lia|]. destruct (dropna r); simpl; lia.
Qed.

Lemma load_row_coords (files : list (string * read_outcome)) ws data r :
  load_data files = Some (ws, data) -> In r data -> ~ lat r == 0 /\ ~ long r == 0.
Proof.
  intros H Hr. destruct (load_data_shape files ws data H) as [rs [-> _]].
  unfold preprocess in Hr.
  apply (Permutation_in _ (sort_by_date_perm _)) in Hr.
  apply in_map_iff in Hr as [[[[d la] lo] rg] [<- Hx]].
  apply filter_In in Hx as [_ Hc]. unfold coord_ok in Hc.
  apply Bool.andb_true_iff in Hc as [Hc1 Hc2].
  apply Bool.negb_true_iff in Hc1, Hc2. simpl.
  split; intros Hz; apply Qeq_bool_iff in Hz; congruence.
Qed.

(** ** Extra properties *)

(** X1: the frame returned by [load_data] is sorted by occurrence date. *)
Theorem X1_load_sorted (files : list (string * read_outcome)) ws data :
  load_data files = Some (ws, data) -> Sorted by_date data.
Proof.
  intros H. destruct (load_data_shape files ws data H) as [rs [-> _]].
  apply sort_by_date_sorted.
Qed.

Definition raw_late : raw_row :=
  mkRaw (Some (mkDate 2022 8 14)) (Some (41 # 1)) (Some (69 # 1)) (Some asia).

(** Two files whose rows arrive latest first. *)
Definition unsorted_files : list (string * read_outcome) :=
  [("2022.csv"%string, ReadOk [raw_late]); ("2020.csv"%string, ReadOk [raw_ok])].

Lemma X1_load_sorted_witness :
  load_data unsorted_files = Some ([], preprocess [raw_late; raw_ok]) /\
  Sorted by_date (preprocess [raw_late; raw_ok]).
Proof.
  assert (H : load_data unsorted_files = Some ([], preprocess [raw_late; raw_ok]))
    by reflexivity.
  split; [exact H | exact (X1_load_sorted _ _ _ H)].
Defined.

(** X2: a row is in the loaded frame iff some row read from a file has all
    four required cells present with these values and non-zero latitude and
    longitude; its [month_year] is the year and month of its date. *)
Theorem X2_load_rows (files : list (string * read_outcome)) ws data :
  load_data files = Some (ws, data) ->
  forall r, In r data <->
    (exists raw, In raw (concat (read_frames files)) /\
       raw_date raw = Some (occ r) /\ raw_lat raw = Some (lat r) /\
       raw_long raw = Some (long r) /\ raw_region raw = Some (region r)) /\
    ~ lat r == 0 /\ ~ long r == 0 /\ month_year r = (year (occ r), month (occ r)).
Proof.
  intros H r. destruct (load_data_shape files ws data H) as [rs [-> ->]].
  unfold preprocess. split.
  - intros Hr. apply (Permutation_in _ (sort_by_date_perm _)) in Hr.
    apply in_map_iff in Hr as [[[[d la] lo] rg] [<- Hx]].
    apply filter_In in Hx as [Hx Hc]. apply dropna_all_In in Hx as [raw [Hraw Hd]].
    unfold coord_ok in Hc. apply Bool.andb_true_iff in Hc as [Hc1 Hc2].
    apply Bool.negb_true_iff in Hc1, Hc2. simpl.
    split; [|split; [|split]].
    + exists raw. split; [exact Hraw|]. unfold dropna in Hd.
      destruct (raw_date raw), (raw_lat raw), (raw_long raw), (raw_region raw);
        try discriminate. injection Hd as -> -> -> ->. auto.
    + intros Hz. apply Qeq_bool_iff in Hz. congruence.
    + intros Hz. apply Qeq_bool_iff in Hz. congruence.
    + reflexivity.
  - intros [[raw [Hraw [Hd [Hla [Hlo Hrg]]]]] [Hz1 [Hz2 Hmy]]].
    apply (Permutation_in _ (Permutation_sym (sort_by_date_perm _))).
    apply in_map_iff. exists (occ r, lat r, long r, region r). split.
    + destruct r as [d la lo rg my]. simpl in *. rewrite Hmy. reflexivity.
    + apply filter_In. split.
      * apply dropna_all_In. exists raw. split; [exact Hraw|].
        unfold dropna. rewrite Hd, Hla, Hlo, Hrg. reflexivity.
      * unfold coord_ok.
        destruct (Qeq_bool (lat r) 0) eqn:E1; [apply Qeq_bool_iff in E1; contradiction|].
        destruct (Qeq_bool (long r) 0) eqn:E2; [apply Qeq_bool_iff in E2; contradiction|].
        reflexivity.
Qed.

Definition row_ok : row := mk_row (mkDate 2020 2 3, 30 # 1, 100 # 1, asia).

Lemma X2_load_rows_witness :
  In row_ok (preprocess [raw_ok]) <->
    (exists raw, In raw (concat (read_frames two_files)) /\
       raw_date raw = Some (occ row_ok) /\ raw_lat raw = Some (lat row_ok) /\
       raw_long raw = Some (long row_ok) /\ raw_region raw = Some (region row_ok)) /\
    ~ lat row_ok == 0 /\ ~ long row_ok == 0 /\
    month_year row_ok = (year (occ row_ok), month (occ row_ok)).
Proof.
  apply (X2_load_rows two_files [not_found_msg "2019.csv"]). reflexivity.
Defined.

(** X3: the loader never produces more rows than it read. *)
Theorem X3_load_no_new_rows (files : list (string * read_outcome)) ws data :
  load_data files = Some (ws, data) ->
  (length data <= length (concat (read_frames files)))%nat.
Proof.
  intros H. destruct (load_data_shape files ws data H) as [rs [-> ->]].
  unfold preprocess. rewrite (Permutation_length (sort_by_date_perm _)), length_map.
  pose proof (dropna_all_length (concat (read_frames files))).
  pose proof (filter_length_le coord_ok (dropna_all (concat (read_frames files)))). lia.
Qed.

Lemma X3_load_no_new_rows_witness :
  (length (preprocess [raw_ok; raw_zero]) <=
   length (concat (read_frames [("2021.csv"%string, ReadOk [raw_ok; raw_zero])])))%nat.
Proof. apply (X3_load_no_new_rows _ []). reflexivity. Defined.

(** X4: only [FileNotFoundError] is caught: any other read error in any file
    escapes [load_data]. *)
Theorem X4_other_error_escapes (files : list (string * read_outcome)) (f : string) :
  In (f, ReadOtherError) files -> load_data files = None.
Proof.
  intros H. unfold load_data.
  assert (E : read_all files = None).
  { induction files as [|[g o] fs IH]; simpl in *; [contradiction|].
    destruct H as [H|H].
    - injection H as -> ->. reflexivity.
    - rewrite (IH H). destruct o; reflexivity. }
  rewrite E. reflexivity.
Qed.

Lemma X4_other_error_escapes_witness :
  load_data [("2019.csv"%string, ReadOk [raw_ok]); ("2020.csv"%string, ReadOtherError)] = None.
Proof. apply (X4_other_error_escapes _ "2020.csv"). right; left; reflexivity. Defined.

(** ** Further properties of the filter, the scorer and the group-by *)

Lemma subseq_refl {A : Type} (l : list A) : subseq l l.
Proof. induction l; constructor; assumption. Qed.

Lemma py_min_compat (x y : Q) : x == y -> py_min 99 x == py_min 99 y.
Proof.
  intros H. unfold py_min.
  destruct (Qle_bool 99 x) eqn:E1, (Qle_bool 99 y) eqn:E2; try reflexivity; try exact H.
  - apply Qle_bool_iff in E1. rewrite H in E1. apply Qle_bool_iff in E1. congruence.
  - apply Qle_bool_iff in E2. rewrite <- H in E2. apply Qle_bool_iff in E2. congruence.
Qed.

(** Rank of a phase in the order Latent < Early < Diffusion. *)
Definition phase_rank (p : phase) : nat :=
  match p with Latent => 0 | Early => 1 | Diffusion => 2 end.

(** X5: filtering an already filtered subset with the same cutoff and
    regions changes nothing. *)
Theorem X5_filter_idempotent (data : list row) (d : date) (cs : list string) :
  filtered_data (filtered_data data d cs) d cs = filtered_data data d cs.
Proof.
  unfold filtered_data. induction data as [|r data IH]; simpl; [reflexivity|].
  destruct (keep d cs r) eqn:E; simpl; [rewrite E, IH; reflexivity | exact IH].
Qed.

(** X6: moving the cutoff later and selecting more regions only adds rows:
    the old subset is a sub-sequence of the new one. *)
Theorem X6_filter_monotone (data : list row) (d1 d2 : date) (cs1 cs2 : list string) :
  date_leb d1 d2 = true -> (forall c, In c cs1 -> In c cs2) ->
  subseq (filtered_data data d1 cs1) (filtered_data data d2 cs2).
Proof.
  intros Hd Hc. unfold filtered_data.
  induction data as [|r data IH]; simpl; [constructor|].
  destruct (keep d1 cs1 r) eqn:E1.
  - assert (E2 : keep d2 cs2 r = true).
    { unfold keep in *. apply Bool.andb_true_iff in E1 as [E1a E1b].
      rewrite (date_leb_trans _ _ _ E1a Hd). apply isin_In, Hc, isin_In. exact E1b. }
    rewrite E2. constructor. exact IH.
  - destruct (keep d2 cs2 r); [constructor|]; exact IH.
Qed.

Lemma X6_filter_monotone_witness :
  subseq (filtered_data scenario_data (mkDate 2022 12 31) [asia])
         (filtered_data scenario_data day_2023 [asia; europe]).
Proof.
  apply X6_filter_monotone; [reflexivity|].
  intros c [<-|[]]. left; reflexivity.
Defined.

(** X7: with no Asian record in the subset, both agents give the same score,
    [min(99, time_factor * 20)], whether the enhanced mode is on or off. *)
Theorem X7_no_asia_score (fd : list row) (d : date) (en : bool) :
  asia_cases fd = 0%Z ->
  risk_score_a fd d == py_min 99 (time_factor d * 20) /\
  risk_score_b fd d en == risk_score_a fd d.
Proof.
  intros H. split.
  - unfold risk_score_a. apply py_min_compat. rewrite H.
    unfold Qdiv. rewrite Qmult_0_l, Qmult_0_l, Qplus_0_l. reflexivity.
  - unfold risk_score_b, llm_context_bonus.
    assert (Hb : (if en then inject_Z (asia_cases fd) * time_factor d * (3 # 2) else 0) == 0)
      by (destruct en; [rewrite H, !Qmult_0_l|]; reflexivity).
    rewrite py_min_idem; [rewrite Hb; apply Qplus_0_r|].
    rewrite Hb, Qplus_0_r. apply py_min_le.
Qed.

Lemma X7_no_asia_score_witness :
  risk_score_a [europe_row] day_2023 == py_min 99 (time_factor day_2023 * 20) /\
  risk_score_b [europe_row] day_2023 true == risk_score_a [europe_row] day_2023.
Proof. apply X7_no_asia_score. vm_compute. reflexivity. Defined.

(** X8: the phase is monotone in the enhanced score: a higher score never
    gives a lower phase. *)
Theorem X8_phase_monotone (s1 s2 : Q) :
  s1 <= s2 -> (phase_rank (classify s1) <= phase_rank (classify s2))%nat.
Proof.
  intros H. unfold classify.
  destruct (py_gt s1 80) eqn:A1, (py_gt s2 80) eqn:A2,
           (py_gt s1 50) eqn:B1, (py_gt s2 50) eqn:B2; simpl; try lia;
    repeat match goal with
    | E : py_gt _ _ = true |- _ => apply py_gt_iff in E
    | E : py_gt _ _ = false |- _ => apply py_gt_false in E
    end; exfalso; lra.
Qed.

Lemma X8_phase_monotone_witness :
  (phase_rank (classify 60) <= phase_rank (classify 85))%nat.
Proof. apply X8_phase_monotone. apply Qle_bool_iff. reflexivity. Defined.

(** ** The monthly group table *)

Definition key_lt (p q : (Z * Z) * nat) : Prop := period_ltb (fst p) (fst q) = true.

(** [monthly_counts.loc[k]]: the size of group [k], [0] when absent. *)
Fixpoint group_size (k : Z * Z) (tbl : list ((Z * Z) * nat)) : nat :=
  match tbl with
  | [] => 0
  | (k', n) :: t => if period_eqb k' k then n else group_size k t
  end.

Lemma period_ltb_spec (a b : Z * Z) :
  period_ltb a b = true <-> (fst a < fst b \/ (fst a = fst b /\ snd a < snd b))%Z.
Proof.
  unfold period_ltb.
  rewrite Bool.orb_true_iff, Bool.andb_true_iff, Z.ltb_lt, Z.eqb_eq, Z.ltb_lt. reflexivity.
Qed.

Lemma period_eqb_spec (a b : Z * Z) : period_eqb a b = true <-> a = b.
Proof.
  destruct a as [a1 a2], b as [b1 b2]. unfold period_eqb. simpl.
  rewrite Bool.andb_true_iff, !Z.eqb_eq. split; [intros [-> ->]; reflexivity|].
  intros H. injection H as -> ->. auto.
Qed.

Lemma period_eqb_false (a b : Z * Z) : period_eqb a b = false <-> a <> b.
Proof.
  rewrite <- period_eqb_spec. destruct (period_eqb a b); split; congruence.
Qed.

Lemma period_ltb_total (a b : Z * Z) :
  period_eqb a b = false -> period_ltb a b = false -> period_ltb b a = true.
Proof.
  destruct a as [a1 a2], b as [b1 b2].
  rewrite period_eqb_false. intros H1 H2. apply period_ltb_spec. simpl.
  destruct (period_ltb_spec (a1, a2) (b1, b2)) as [_ H3]. simpl in H3.
  destruct (Z.lt_trichotomy a1 b1) as [E|[E|E]];
    [rewrite H3 in H2 by lia; discriminate| |lia].
  subst. destruct (Z.lt_trichotomy a2 b2) as [E|[E|E]];
    [rewrite H3 in H2 by lia; discriminate|subst; congruence|lia].
Qed.

Lemma period_ltb_trans (a b c : Z * Z) :
  period_ltb a b = true -> period_ltb b c = true -> period_ltb a c = true.
Proof. rewrite !period_ltb_spec. lia. Qed.

Lemma period_ltb_neq (a b : Z * Z) : period_ltb a b = true -> a <> b.
Proof. rewrite period_ltb_spec. intros H ->. lia. Qed.

Lemma count_into_keys (k : Z * Z) (t : list ((Z * Z) * nat)) p :
  In p (count_into k t) -> fst p = k \/ In (fst p) (map fst t).
Proof.
  induction t as [|[k' n] t IH]; simpl.
  - intros [<-|[]]. left; reflexivity.
  - destruct (period_eqb k k') eqn:E.
    + intros [<-|H]; right; [left; reflexivity | right; apply in_map; exact H].
    + destruct (period_ltb k k').
      * intros [<-|[<-|H]]; [left; reflexivity | right; left; reflexivity |].
        right; right; apply in_map; exact H.
      * intros [<-|H]; [right; left; reflexivity|].
        destruct (IH H) as [H'|H']; [left; exact H' | right; right; exact H'].
Qed.

Lemma count_into_sorted (k : Z * Z) (t : list ((Z * Z) * nat)) :
  StronglySorted key_lt t -> StronglySorted key_lt (count_into k t).
Proof.
  induction t as [|[k' n] t IH]; intros Hs; simpl; [repeat constructor|].
  apply StronglySorted_inv in Hs as [Ht Hf].
  destruct (period_eqb k k') eqn:E.
  - constructor; [exact Ht|]. exact Hf.
  - destruct (period_ltb k k') eqn:L.
    + constructor; [constructor; assumption|].
      constructor; [exact L|]. rewrite Forall_forall in *.
      intros q Hq. apply (period_ltb_trans _ k'); [exact L | apply (Hf q Hq)].
    + constructor; [apply IH; exact Ht|]. apply Forall_forall.
      intros q Hq. destruct (count_into_keys k t q Hq) as [Hk|Hk].
      * unfold key_lt. simpl. rewrite Hk. apply period_ltb_total; assumption.
      * apply in_map_iff in Hk as [q' [Hq' Hin]]. rewrite Forall_forall in Hf.
        unfold key_lt. rewrite <- Hq'. apply (Hf q' Hin).
Qed.

Lemma count_into_pos (k : Z * Z) (t : list ((Z * Z) * nat)) :
  Forall (fun p => (0 < snd p)%nat) t -> Forall (fun p => (0 < snd p)%nat) (count_into k t).
Proof.
  induction t as [|[k' n] t IH]; intros H; simpl; [repeat constructor; simpl; lia|].
  apply Forall_cons_iff in H as [H1 H2].
  destruct (period_eqb k k'); [constructor; [simpl; lia | exact H2]|].
  destruct (period_ltb k k'); constructor; simpl; auto; lia.
Qed.

Lemma monthly_counts_sorted (fd : list row) : StronglySorted key_lt (monthly_counts fd).
Proof.
  induction fd as [|r fd IH]; [constructor|].
  unfold monthly_counts in *. simpl. apply count_into_sorted. exact IH.
Qed.

Lemma group_size_absent (k : Z * Z) (t : list ((Z * Z) * nat)) :
  Forall (fun p => period_ltb k (fst p) = true) t -> group_size k t = 0%nat.
Proof.
  induction t as [|[k' n] t IH]; intros H; simpl; [reflexivity|].
  apply Forall_cons_iff in H as [H1 H2]. simpl in H1.
  destruct (period_eqb k' k) eqn:E.
  - apply period_eqb_spec in E. subst. exfalso. exact (period_ltb_neq _ _ H1 eq_refl).
  - apply IH. exact H2.
Qed.

Lemma group_size_count_into (k k' : Z * Z) (t : list ((Z * Z) * nat)) :
  StronglySorted key_lt t ->
  group_size k (count_into k' t) = ((if period_eqb k' k then 1 else 0) + group_size k t)%nat.
Proof.
  induction t as [|[h n] t IH]; intros Hs; simpl.
  - destruct (period_eqb k' k); reflexivity.
  - apply StronglySorted_inv in Hs as [Ht Hf].
    destruct (period_eqb k' h) eqn:E.
    + apply period_eqb_spec in E. subst h. simpl.
      destruct (period_eqb k' k); reflexivity.
    + destruct (period_ltb k' h) eqn:L; simpl.
      * destruct (period_eqb k' k) eqn:E1; [|reflexivity].
        apply period_eqb_spec in E1. subst k'.
        destruct (period_eqb h k) eqn:E2.
        -- apply period_eqb_spec in E2. subst h. rewrite period_eqb_false in E. congruence.
        -- rewrite group_size_absent; [reflexivity|].
           rewrite Forall_forall in *. intros q Hq.
           apply (period_ltb_trans _ h); [exact L | apply (Hf q Hq)].
      * destruct (period_eqb h k) eqn:E2.
        -- apply period_eqb_spec in E2. subst h.
           assert (E3 : period_eqb k' k = false) by exact E. rewrite E3. reflexivity.
        -- apply IH. exact Ht.
Qed.

(** X9: the monthly table lists each month once, in increasing (year, month)
    order, and every listed month has a count of at least 1. *)
Theorem X9_monthly_table_shape (fd : list row) :
  StronglySorted key_lt (monthly_counts fd) /\
  Forall (fun p => (0 < snd p)%nat) (monthly_counts fd).
Proof.
  split; [apply monthly_counts_sorted|].
  induction fd as [|r fd IH]; [constructor|].
  unfold monthly_counts in *. simpl. apply count_into_pos. exact IH.
Qed.

(** X10: the count listed for a month is the number of rows of the subset in
    that month ([0] when the month is absent). *)
Theorem X10_monthly_group_size (fd : list row) (k : Z * Z) :
  group_size k (monthly_counts fd) =
  length (filter (fun r => period_eqb (month_year r) k) fd).
Proof.
  induction fd as [|r fd IH]; [reflexivity|].
  unfold monthly_counts in *. simpl.
  rewrite group_size_count_into by apply monthly_counts_sorted.
  rewrite IH. destruct (period_eqb (month_year r) k); reflexivity.
Qed.

(** X11: when the script reaches the dashboard, every row it maps and charts
    is dated on or before the slider date, lies in a selected region and has
    non-zero latitude and longitude, and the chart's monthly counts add up
    to the number of rows shown. *)
Theorem X11_dashboard_rows (files : list (string * read_outcome)) (d : date)
  (cs : list string) (en : bool) ws fd a m :
  run_app files d cs en = Some (ws, Dashboard fd a m) ->
  (forall r, In r fd ->
     date_leb (occ r) d = true /\ In (region r) cs /\ ~ lat r == 0 /\ ~ long r == 0) /\
  sum_counts m = length fd.
Proof.
  unfold run_app. destruct (load_data files) as [[ws' data]|] eqn:E; [|discriminate].
  destruct data as [|r0 data'] eqn:Hdata; [discriminate|].
  rewrite <- Hdata in *. intros H. injection H as <- <- <- <-.
  split; [|apply monthly_counts_sum].
  intros r Hr. unfold filtered_data, keep in Hr.
  apply filter_In in Hr as [Hr Hk].
  apply Bool.andb_true_iff in Hk as [Hk1 Hk2].
  destruct (load_row_coords files ws' data r E Hr) as [Hz1 Hz2].
  split; [exact Hk1|]. split; [apply isin_In; exact Hk2|]. auto.
Qed.

Lemma X11_dashboard_rows_witness :
  (forall r, In r (filtered_data (preprocess [raw_ok]) day_2023 [asia]) ->
     date_leb (occ r) day_2023 = true /\ In (region r) [asia] /\
     ~ lat r == 0 /\ ~ long r == 0) /\
  sum_counts (monthly_counts (filtered_data (preprocess [raw_ok]) day_2023 [asia])) =
  length (filtered_data (preprocess [raw_ok]) day_2023 [asia]).
Proof. apply (X11_dashboard_rows two_files day_2023 [asia] true [not_found_msg "2019.csv"] _
               (assess (filtered_data (preprocess [raw_ok]) day_2023 [asia]) day_2023 true)).
  reflexivity.
Defined.
